(** * notebook-viewer: the freehand annotation layer

    A shallow embedding of the drawing code of the lesson viewer:

    - the single-canvas variant ([config.js], [touch-handler.js],
      [drawing.js]): a vector stroke log replayed against the scroll
      offset, with delayed confirmation of stylus touches;
    - the dual-pane variant ([DrawingAPI.js]): one raster surface per
      pane, a permissive stylus classifier, debounced autosave, and the
      server-first / localStorage-fallback persistence of the raster.

    JavaScript numbers are modelled as exact rationals ([Q]); IEEE-754
    rounding is not part of the model.  Browser objects (the 2D context, the
    event loop, localStorage, the HTTP service) are modelled by the state
    they expose to the code. *)

From stdpp Require Import base option list strings gmap.
From Stdlib Require Import ZArith QArith Qround Lqa Lia.

Set Default Proof Using "Type".

(** ** JavaScript number operators *)

Module Js.
Local Open Scope Q_scope.

(** [a < b] on numbers. *)
Definition ltb (a b : Q) : bool :=
  match a ?= b with Lt => true | _ => false end.

(** [a > b] on numbers. *)
Definition gtb (a b : Q) : bool := ltb b a.

(** [x || 0]: a falsy number (zero) is replaced by the literal [0]. *)
Definition or_zero (x : Q) : Q := if Qeq_bool x 0 then 0 else x.

End Js.

(** ** The 2D rendering context

    The raster is kept as the list of paint commands issued on it: a surface
    whose command list did not change holds the same pixels. *)

Module Canvas2D.
Local Open Scope Q_scope.

Inductive CompositeOp := source_over | destination_out.

Inductive PathOp :=
| moveTo (x y : Q)
| lineTo (x y : Q)
| closePath.

Record Brush := {
  strokeStyle : string;
  lineWidth : Q;
  lineCap : string;
  lineJoin : string;
  globalCompositeOperation : CompositeOp;
  shadowColor : string;
  shadowBlur : Q
}.

(** One [ctx.stroke()]: the current path painted with the current brush. *)
Record Paint := { paint_brush : Brush; paint_path : list PathOp }.

Record Ctx := { brush : Brush; path : list PathOp; surface : list Paint }.

(** State of a context returned by [getContext('2d')] on a new canvas. *)
Definition fresh : Ctx :=
  {| brush := {| strokeStyle := "#000000"; lineWidth := 1; lineCap := "butt";
                 lineJoin := "miter"; globalCompositeOperation := source_over;
                 shadowColor := "rgba(0, 0, 0, 0)"; shadowBlur := 0 |};
     path := []; surface := [] |}.

Definition with_brush (f : Brush -> Brush) (c : Ctx) : Ctx :=
  {| brush := f (brush c); path := path c; surface := surface c |}.

Definition set_strokeStyle (v : string) : Ctx -> Ctx :=
  with_brush (fun b =>
    {| strokeStyle := v; lineWidth := lineWidth b; lineCap := lineCap b;
       lineJoin := lineJoin b;
       globalCompositeOperation := globalCompositeOperation b;
       shadowColor := shadowColor b; shadowBlur := shadowBlur b |}).

(** The [lineWidth] setter ignores zero and negative values. *)
Definition set_lineWidth (v : Q) : Ctx -> Ctx :=
  with_brush (fun b =>
    {| strokeStyle := strokeStyle b;
       lineWidth := if Js.ltb 0 v then v else lineWidth b;
       lineCap := lineCap b; lineJoin := lineJoin b;
       globalCompositeOperation := globalCompositeOperation b;
       shadowColor := shadowColor b; shadowBlur := shadowBlur b |}).

Definition set_lineCap (v : string) : Ctx -> Ctx :=
  with_brush (fun b =>
    {| strokeStyle := strokeStyle b; lineWidth := lineWidth b; lineCap := v;
       lineJoin := lineJoin b;
       globalCompositeOperation := globalCompositeOperation b;
       shadowColor := shadowColor b; shadowBlur := shadowBlur b |}).

Definition set_lineJoin (v : string) : Ctx -> Ctx :=
  with_brush (fun b =>
    {| strokeStyle := strokeStyle b; lineWidth := lineWidth b;
       lineCap := lineCap b; lineJoin := v;
       globalCompositeOperation := globalCompositeOperation b;
       shadowColor := shadowColor b; shadowBlur := shadowBlur b |}).

Definition set_globalCompositeOperation (v : CompositeOp) : Ctx -> Ctx :=
  with_brush (fun b =>
    {| strokeStyle := strokeStyle b; lineWidth := lineWidth b;
       lineCap := lineCap b; lineJoin := lineJoin b;
       globalCompositeOperation := v;
       shadowColor := shadowColor b; shadowBlur := shadowBlur b |}).

Definition set_shadowColor (v : string) : Ctx -> Ctx :=
  with_brush (fun b =>
    {| strokeStyle := strokeStyle b; lineWidth := lineWidth b;
       lineCap := lineCap b; lineJoin := lineJoin b;
       globalCompositeOperation := globalCompositeOperation b;
       shadowColor := v; shadowBlur := shadowBlur b |}).

(** The [shadowBlur] setter ignores negative values. *)
Definition set_shadowBlur (v : Q) : Ctx -> Ctx :=
  with_brush (fun b =>
    {| strokeStyle := strokeStyle b; lineWidth := lineWidth b;
       lineCap := lineCap b; lineJoin := lineJoin b;
       globalCompositeOperation := globalCompositeOperation b;
       shadowColor := shadowColor b;
       shadowBlur := if Js.ltb v 0 then shadowBlur b else v |}).

Definition beginPath (c : Ctx) : Ctx :=
  {| brush := brush c; path := []; surface := surface c |}.

Definition add_path (op : PathOp) (c : Ctx) : Ctx :=
  {| brush := brush c; path := path c ++ [op]; surface := surface c |}.

Definition stroke (c : Ctx) : Ctx :=
  {| brush := brush c; path := path c;
     surface := surface c ++ [{| paint_brush := brush c; paint_path := path c |}] |}.

(** [ctx.clearRect(0, 0, canvas.width, canvas.height)]. *)
Definition clearAll (c : Ctx) : Ctx :=
  {| brush := brush c; path := path c; surface := [] |}.
End Canvas2D.

(** ** Touch samples *)

Record Touch := {
  touchType : option string;   (* [undefined] where the platform has none *)
  radiusX : option Q;
  radiusY : option Q;
  clientX : Q;
  clientY : Q
}.

(** ** Single-canvas variant: [config.js], [debug-panel.js],
       [touch-handler.js], [drawing.js] *)

Module SingleCanvas.
Import Canvas2D.
Local Open Scope Q_scope.

Inductive Tool := pen | eraser.

Definition Tool_eqb (a b : Tool) : bool :=
  match a, b with pen, pen | eraser, eraser => true | _, _ => false end.

(** A recorded point [{x, y}] and a stroke of the vector log. *)
Record Point := { x : Q; y : Q }.

Record Stroke := {
  tool : Tool;
  color : string;
  width : Q;
  points : list Point
}.

(** [config.js]: [pendingStroke]. *)
Record PendingStroke := {
  active : bool;
  startX : Q;
  startY : Q;
  contentX : Q;
  contentY : Q;
  confirmed : bool;
  confirmCount : Z;
  scrollTop : Q
}.

(** Lines that [addDebugLog] writes into the [#debug-log] element. *)
Inductive StylusReason :=
| touchType_stylus
| touchType_direct
| touchType_undefined (avgRadius : option Q).

Inductive DebugLine :=
| log_isStylus (result : bool) (reason : StylusReason)
| log_touch_pending
| log_reconfirm_failed
| log_reconfirm_passed (count : Z)
| log_confirmed.

(** [config.js]: [state], together with the other objects the handlers
    read and write: [pendingStroke], the page's [localStorage] and the
    lines of the debug panel's [#debug-log] element ([None] on a page
    without the element). *)
Record State := {
  currentFileName : string;
  drawingActive : bool;
  currentTool : Tool;
  currentColor : string;
  currentLineWidth : Q;
  isDrawing : bool;
  lastX : Q;
  lastY : Q;
  drawingData : list Stroke;
  ctx : Ctx;
  currentStroke : option Stroke;
  pendingStroke : PendingStroke;
  localStorage : gmap string (list Stroke);
  debugLog : option (list DebugLine)
}.

Definition initial : State :=
  {| currentFileName := EmptyString; drawingActive := false; currentTool := pen;
     currentColor := "#ef4444"; currentLineWidth := 4; isDrawing := false;
     lastX := 0; lastY := 0; drawingData := []; ctx := Canvas2D.fresh;
     currentStroke := None;
     pendingStroke :=
       {| active := false; startX := 0; startY := 0; contentX := 0;
          contentY := 0; confirmed := false; confirmCount := 0%Z;
          scrollTop := 0 |};
     localStorage := ∅; debugLog := Some [] |}.

(** *** Field assignments *)

Definition set_drawingActive (v : bool) (s : State) : State :=
  {| currentFileName := currentFileName s; drawingActive := v;
     currentTool := currentTool s; currentColor := currentColor s;
     currentLineWidth := currentLineWidth s; isDrawing := isDrawing s;
     lastX := lastX s; lastY := lastY s; drawingData := drawingData s;
     ctx := ctx s; currentStroke := currentStroke s;
     pendingStroke := pendingStroke s; localStorage := localStorage s;
     debugLog := debugLog s |}.

Definition set_currentTool (v : Tool) (s : State) : State :=
  {| currentFileName := currentFileName s; drawingActive := drawingActive s;
     currentTool := v; currentColor := currentColor s;
     currentLineWidth := currentLineWidth s; isDrawing := isDrawing s;
     lastX := lastX s; lastY := lastY s; drawingData := drawingData s;
     ctx := ctx s; currentStroke := currentStroke s;
     pendingStroke := pendingStroke s; localStorage := localStorage s;
     debugLog := debugLog s |}.

Definition set_currentColor (v : string) (s : State) : State :=
  {| currentFileName := currentFileName s; drawingActive := drawingActive s;
     currentTool := currentTool s; currentColor := v;
     currentLineWidth := currentLineWidth s; isDrawing := isDrawing s;
     lastX := lastX s; lastY := lastY s; drawingData := drawingData s;
     ctx := ctx s; currentStroke := currentStroke s;
     pendingStroke := pendingStroke s; localStorage := localStorage s;
     debugLog := debugLog s |}.

Definition set_currentLineWidth (v : Q) (s : State) : State :=
  {| currentFileName := currentFileName s; drawingActive := drawingActive s;
     currentTool := currentTool s; currentColor := currentColor s;
     currentLineWidth := v; isDrawing := isDrawing s;
     lastX := lastX s; lastY := lastY s; drawingData := drawingData s;
     ctx := ctx s; currentStroke := currentStroke s;
     pendingStroke := pendingStroke s; localStorage := localStorage s;
     debugLog := debugLog s |}.

Definition set_isDrawing (v : bool) (s : State) : State :=
  {| currentFileName := currentFileName s; drawingActive := drawingActive s;
     currentTool := currentTool s; currentColor := currentColor s;
     currentLineWidth := currentLineWidth s; isDrawing := v;
     lastX := lastX s; lastY := lastY s; drawingData := drawingData s;
     ctx := ctx s; currentStroke := currentStroke s;
     pendingStroke := pendingStroke s; localStorage := localStorage s;
     debugLog := debugLog s |}.

Definition set_last (vx vy : Q) (s : State) : State :=
  {| currentFileName := currentFileName s; drawingActive := drawingActive s;
     currentTool := currentTool s; currentColor := currentColor s;
     currentLineWidth := currentLineWidth s; isDrawing := isDrawing s;
     lastX := vx; lastY := vy; drawingData := drawingData s;
     ctx := ctx s; currentStroke := currentStroke s;
     pendingStroke := pendingStroke s; localStorage := localStorage s;
     debugLog := debugLog s |}.

Definition set_drawingData (v : list Stroke) (s : State) : State :=
  {| currentFileName := currentFileName s; drawingActive := drawingActive s;
     currentTool := currentTool s; currentColor := currentColor s;
     currentLineWidth := currentLineWidth s; isDrawing := isDrawing s;
     lastX := lastX s; lastY := lastY s; drawingData := v;
     ctx := ctx s; currentStroke := currentStroke s;
     pendingStroke := pendingStroke s; localStorage := localStorage s;
     debugLog := debugLog s |}.

Definition set_ctx (v : Ctx) (s : State) : State :=
  {| currentFileName := currentFileName s; drawingActive := drawingActive s;
     currentTool := currentTool s; currentColor := currentColor s;
     currentLineWidth := currentLineWidth s; isDrawing := isDrawing s;
     lastX := lastX s; lastY := lastY s; drawingData := drawingData s;
     ctx := v; currentStroke := currentStroke s;
     pendingStroke := pendingStroke s; localStorage := localStorage s;
     debugLog := debugLog s |}.

Definition set_currentStroke (v : option Stroke) (s : State) : State :=
  {| currentFileName := currentFileName s; drawingActive := drawingActive s;
     currentTool := currentTool s; currentColor := currentColor s;
     currentLineWidth := currentLineWidth s; isDrawing := isDrawing s;
     lastX := lastX s; lastY := lastY s; drawingData := drawingData s;
     ctx := ctx s; currentStroke := v;
     pendingStroke := pendingStroke s; localStorage := localStorage s;
     debugLog := debugLog s |}.

Definition set_pendingStroke (v : PendingStroke) (s : State) : State :=
  {| currentFileName := currentFileName s; drawingActive := drawingActive s;
     currentTool := currentTool s; currentColor := currentColor s;
     currentLineWidth := currentLineWidth s; isDrawing := isDrawing s;
     lastX := lastX s; lastY := lastY s; drawingData := drawingData s;
     ctx := ctx s; currentStroke := currentStroke s;
     pendingStroke := v; localStorage := localStorage s;
     debugLog := debugLog s |}.

Definition set_localStorage (v : gmap string (list Stroke)) (s : State) : State :=
  {| currentFileName := currentFileName s; drawingActive := drawingActive s;
     currentTool := currentTool s; currentColor := currentColor s;
     currentLineWidth := currentLineWidth s; isDrawing := isDrawing s;
     lastX := lastX s; lastY := lastY s; drawingData := drawingData s;
     ctx := ctx s; currentStroke := currentStroke s;
     pendingStroke := pendingStroke s; localStorage := v;
     debugLog := debugLog s |}.

Definition set_debugLog (v : option (list DebugLine)) (s : State) : State :=
  {| currentFileName := currentFileName s; drawingActive := drawingActive s;
     currentTool := currentTool s; currentColor := currentColor s;
     currentLineWidth := currentLineWidth s; isDrawing := isDrawing s;
     lastX := lastX s; lastY := lastY s; drawingData := drawingData s;
     ctx := ctx s; currentStroke := currentStroke s;
     pendingStroke := pendingStroke s; localStorage := localStorage s;
     debugLog := v |}.

(** [pendingStroke.active = false; .confirmed = false; .confirmCount = 0]. *)
Definition reset_pending (p : PendingStroke) : PendingStroke :=
  {| active := false; startX := startX p; startY := startY p;
     contentX := contentX p; contentY := contentY p; confirmed := false;
     confirmCount := 0%Z; scrollTop := scrollTop p |}.

(** *** [debug-panel.js] *)

(** [addDebugLog]: when the page has the [#debug-log] element, the new
    line goes first and the log keeps 20 lines. *)
Definition addDebugLog (msg : DebugLine) (s : State) : State :=
  set_debugLog ((fun log => take 20 (msg :: log)) <$> debugLog s) s.

(** [updateDebugResult]; the coloured result label is not modelled. *)
Definition updateDebugResult (result : bool) (reason : StylusReason)
    (s : State) : State :=
  addDebugLog (log_isStylus result reason) s.

(** *** [touch-handler.js]: the strict classifier *)

(** [isStylus]: only [touchType === 'stylus'] is accepted.  The function
    reports to the debug panel, so it returns the new state with its
    verdict.  ([updateDebugPanel] only rewrites labels of the panel.) *)
Definition isStylus (touch : Touch) (s : State) : bool * State :=
  if bool_decide (touchType touch = Some "stylus"%string) then
    (true, updateDebugResult true touchType_stylus s)
  else if bool_decide (touchType touch = Some "direct"%string) then
    (false, updateDebugResult false touchType_direct s)
  else
    let avgRadius :=
      match radiusX touch, radiusY touch with
      | Some rx, Some ry => Some ((rx + ry) / 2)
      | _, _ => None
      end in
    (false, updateDebugResult false (touchType_undefined avgRadius) s).

(** *** What the handlers read from the page *)

Record Rect := { rect_left : Q; rect_top : Q; rect_right : Q; rect_bottom : Q }.

(** [#content-wrapper] (its box and scroll offset) and the box of the
    canvas, as [getBoundingClientRect] reports them when a handler runs. *)
Record Dom := {
  wrapperRect : Rect;
  wrapperScrollTop : Q;
  canvasRect : Rect
}.

(** [contentWrapper?.scrollTop || 0]. *)
Definition scrollTopOf (dom : Dom) : Q := Js.or_zero (wrapperScrollTop dom).

Record MouseEvent := { mouseX : Q; mouseY : Q }.

(** *** [drawing.js] *)

Definition push_point (p : Point) (st : Stroke) : Stroke :=
  {| tool := tool st; color := color st; width := width st;
     points := points st ++ [p] |}.

(** The stroke object built from the current tool settings. *)
Definition new_stroke (s : State) : Stroke :=
  {| tool := currentTool s; color := currentColor s;
     width := currentLineWidth s;
     points := [{| x := lastX s; y := lastY s |}] |}.

(** The five context assignments that [draw] and the confirming
    [touchmove] both make from the current tool settings. *)
Definition apply_tool_settings (s : State) (c : Ctx) : Ctx :=
  let c := set_strokeStyle
             (if Tool_eqb (currentTool s) eraser then "#fff"%string
              else currentColor s) c in
  let c := set_lineWidth
             (if Tool_eqb (currentTool s) eraser then currentLineWidth s * 3
              else currentLineWidth s) c in
  let c := set_lineCap "round" c in
  let c := set_lineJoin "round" c in
  set_globalCompositeOperation
    (if Tool_eqb (currentTool s) eraser then destination_out
     else source_over) c.

Definition startDrawing (dom : Dom) (e : MouseEvent) (s : State) : State :=
  if negb (drawingActive s) then s else
  let s := set_isDrawing true s in
  let scrollTop := scrollTopOf dom in
  let screenX := mouseX e - rect_left (canvasRect dom) in
  let screenY := mouseY e - rect_top (canvasRect dom) in
  let s := set_last screenX (screenY + scrollTop) s in
  set_currentStroke (Some (new_stroke s)) s.

(** [draw]; with no current stroke the [push] raises before anything is
    written, which leaves the state as it was. *)
Definition draw (dom : Dom) (e : MouseEvent) (s : State) : State :=
  if negb (isDrawing s) || negb (drawingActive s) then s else
  match currentStroke s with
  | None => s
  | Some st =>
      let scrollTop := scrollTopOf dom in
      let screenX := mouseX e - rect_left (canvasRect dom) in
      let screenY := mouseY e - rect_top (canvasRect dom) in
      let contentX := screenX in
      let contentY := screenY + scrollTop in
      let s := set_currentStroke
                 (Some (push_point {| x := contentX; y := contentY |} st)) s in
      let c := apply_tool_settings s (ctx s) in
      let c := beginPath c in
      let lastScreenY := lastY s - scrollTop in
      let c := add_path (moveTo (lastX s) lastScreenY) c in
      let c := add_path (lineTo screenX screenY) c in
      let c := stroke c in
      let s := set_ctx c s in
      set_last contentX contentY s
  end.

Definition storageKey (fileName : string) : string :=
  ("drawing_" +:+ fileName)%string.

(** [saveDrawingToStorage]: the value written is the serialized log. *)
Definition saveDrawingToStorage (s : State) : State :=
  if bool_decide (currentFileName s = EmptyString) then s else
  set_localStorage
    (<[storageKey (currentFileName s) := drawingData s]> (localStorage s)) s.

Definition stopDrawing (s : State) : State :=
  if negb (isDrawing s) then s else
  let s := set_isDrawing false s in
  let s :=
    match currentStroke s with
    | Some st =>
        if (1 <? length (points st))%nat then
          saveDrawingToStorage (set_drawingData (drawingData s ++ [st]) s)
        else s
    | None => s
    end in
  let s := set_currentStroke None s in
  set_ctx (set_globalCompositeOperation source_over (ctx s)) s.

(** [s.points.forEach((p, i) => ...)] of [redrawCanvas]. *)
Fixpoint replay_points (scrollTop : Q) (i : nat) (pts : list Point)
    (c : Ctx) : Ctx :=
  match pts with
  | [] => c
  | p :: rest =>
      let screenY := y p - scrollTop in
      let c := match i with
               | O => add_path (moveTo (x p) screenY) c
               | S _ => add_path (lineTo (x p) screenY) c
               end in
      replay_points scrollTop (S i) rest c
  end.

(** The body of [state.drawingData.forEach(s => ...)]. *)
Definition replay_stroke (scrollTop : Q) (c : Ctx) (st : Stroke) : Ctx :=
  let c := set_strokeStyle (color st) c in
  let c := set_lineWidth (width st) c in
  let c := set_lineCap "round" c in
  let c := set_lineJoin "round" c in
  let c := set_globalCompositeOperation
             (if Tool_eqb (tool st) eraser then destination_out
              else source_over) c in
  let c := if Tool_eqb (tool st) eraser then set_lineWidth (width st * 3) c
           else c in
  let c := beginPath c in
  let c := replay_points scrollTop 0 (points st) c in
  stroke c.

Definition redrawCanvas (dom : Dom) (s : State) : State :=
  let c := clearAll (ctx s) in
  let scrollTop := scrollTopOf dom in
  let c := fold_left (replay_stroke scrollTop) (drawingData s) c in
  set_ctx (set_globalCompositeOperation source_over c) s.

Definition loadDrawingData (dom : Dom) (s : State) : State :=
  if bool_decide (currentFileName s = EmptyString) then s else
  match localStorage s !! storageKey (currentFileName s) with
  | Some saved => redrawCanvas dom (set_drawingData saved s)
  | None => set_ctx (clearAll (ctx s)) (set_drawingData [] s)
  end.

Definition toggleDrawing (s : State) : State :=
  set_drawingActive (negb (drawingActive s)) s.

Definition setTool (t : Tool) (s : State) : State := set_currentTool t s.

Definition setColor (c : string) (s : State) : State :=
  setTool pen (set_currentTool pen (set_currentColor c s)).

Definition setLineWidth (w : Q) (s : State) : State :=
  set_currentLineWidth w s.

Definition clearDrawing (s : State) : State :=
  let s := set_ctx (clearAll (ctx s)) s in
  let s := set_drawingData [] s in
  saveDrawingToStorage s.

Definition saveDrawing (s : State) : State := saveDrawingToStorage s.

(** *** [touch-handler.js]: the touch handlers

    The long-press, hover and barrel-button timers only change the tool
    selection and [longPressState] / [hoverState] / [barrelButton]; the
    calls that arm or cancel them are left out. *)

Definition outside (r : Rect) (t : Touch) : bool :=
  Js.ltb (clientX t) (rect_left r) || Js.gtb (clientX t) (rect_right r) ||
  Js.ltb (clientY t) (rect_top r) || Js.gtb (clientY t) (rect_bottom r).

Definition touchstart (dom : Dom) (touches : list Touch) (s : State) : State :=
  if negb (drawingActive s) then s else
  match touches with
  | [touch] =>
      let '(isApplePencil, s) := isStylus touch s in
      if isApplePencil then
        if outside (wrapperRect dom) touch then s else
        let scrollTop := scrollTopOf dom in
        let screenX := clientX touch - rect_left (canvasRect dom) in
        let screenY := clientY touch - rect_top (canvasRect dom) in
        let s := set_pendingStroke
                   {| active := true; startX := screenX; startY := screenY;
                      contentX := screenX; contentY := screenY + scrollTop;
                      confirmed := false; confirmCount := 1%Z;
                      scrollTop := scrollTop |} s in
        addDebugLog log_touch_pending s
      else
        let s := set_pendingStroke (reset_pending (pendingStroke s)) s in
        set_ctx (beginPath (ctx s)) s
  | _ => s
  end.

(** The statements of the confirming branch, once the count reached 3. *)
Definition confirm_stroke (s : State) : State :=
  let p := pendingStroke s in
  let s := set_pendingStroke
             {| active := active p; startX := startX p; startY := startY p;
                contentX := contentX p; contentY := contentY p;
                confirmed := true; confirmCount := confirmCount p;
                scrollTop := scrollTop p |} s in
  let s := set_isDrawing true s in
  let s := set_last (contentX p) (contentY p) s in
  let s := set_currentStroke (Some (new_stroke s)) s in
  let c := apply_tool_settings s (ctx s) in
  let c := beginPath c in
  let c := add_path (moveTo (startX p) (startY p)) c in
  addDebugLog log_confirmed (set_ctx c s).

(** The block [if (pendingStroke.active && !pendingStroke.confirmed)] of
    [touchmove]: [inl] when the handler returns inside it, [inr] when
    control falls through to the drawing part. *)
Definition reconfirm (isApplePencil : bool) (s : State) : State + State :=
  let p := pendingStroke s in
  if active p && negb (confirmed p) then
    if negb isApplePencil then
      inl (addDebugLog log_reconfirm_failed
             (set_pendingStroke (reset_pending p) s))
    else
      let p := {| active := active p; startX := startX p; startY := startY p;
                  contentX := contentX p; contentY := contentY p;
                  confirmed := confirmed p;
                  confirmCount := (confirmCount p + 1)%Z;
                  scrollTop := scrollTop p |} in
      let s := set_pendingStroke p s in
      let s := addDebugLog (log_reconfirm_passed (confirmCount p)) s in
      if (3 <=? confirmCount p)%Z then inr (confirm_stroke s) else inr s
  else inr s.

Definition touchmove (dom : Dom) (touches : list Touch) (s : State) : State :=
  if negb (drawingActive s) then s else
  match touches with
  | [touch] =>
      if negb (active (pendingStroke s)) && negb (isDrawing s) then s else
      let '(isApplePencil, s) := isStylus touch s in
      match reconfirm isApplePencil s with
      | inl s => s
      | inr s =>
          if negb (isDrawing s) then s else
          if negb isApplePencil then
            let s := stopDrawing s in
            set_ctx (beginPath (ctx s)) s
          else
            let scrollTop := scrollTopOf dom in
            let screenX := clientX touch - rect_left (canvasRect dom) in
            let screenY := clientY touch - rect_top (canvasRect dom) in
            let contentX := screenX in
            let contentY := screenY + scrollTop in
            let c := add_path (lineTo screenX screenY) (ctx s) in
            let s := set_ctx (stroke c) s in
            let s := match currentStroke s with
                     | Some st =>
                         set_currentStroke
                           (Some (push_point {| x := contentX; y := contentY |} st)) s
                     | None => s
                     end in
            set_last contentX contentY s
      end
  | _ =>
      let s := set_pendingStroke (reset_pending (pendingStroke s)) s in
      stopDrawing s
  end.

Definition touchend (changedTouches : list Touch) (s : State) : State :=
  let s := if active (pendingStroke s)
           then set_pendingStroke (reset_pending (pendingStroke s)) s
           else s in
  if isDrawing s then
    let s := match changedTouches with
             | touch :: _ => snd (isStylus touch s)
             | [] => s
             end in
    stopDrawing s
  else s.

(** [handlers.mousedown]; [inContent] is the test on [e.target]. *)
Definition mousedown (dom : Dom) (e : MouseEvent) (inContent : bool)
    (s : State) : State :=
  if negb (drawingActive s) then s else
  if negb inContent then s else
  startDrawing dom e s.

(** *** Runs of the page *)

Inductive Event :=
| on_mousedown (dom : Dom) (e : MouseEvent) (inContent : bool)
| on_mousemove (dom : Dom) (e : MouseEvent)
| on_mouseup
| on_touchstart (dom : Dom) (touches : list Touch)
| on_touchmove (dom : Dom) (touches : list Touch)
| on_touchend (changedTouches : list Touch)
| on_scroll (dom : Dom)
| on_toggleDrawing
| on_setTool (t : Tool)
| on_setColor (c : string)
| on_setLineWidth (w : Q)
| on_clearDrawing
| on_saveDrawing
| on_loadDrawingData (dom : Dom).

Definition step (s : State) (ev : Event) : State :=
  match ev with
  | on_mousedown dom e inContent => mousedown dom e inContent s
  | on_mousemove dom e => draw dom e s
  | on_mouseup => stopDrawing s
  | on_touchstart dom touches => touchstart dom touches s
  | on_touchmove dom touches => touchmove dom touches s
  | on_touchend changed => touchend changed s
  | on_scroll dom => redrawCanvas dom s
  | on_toggleDrawing => toggleDrawing s
  | on_setTool t => setTool t s
  | on_setColor c => setColor c s
  | on_setLineWidth w => setLineWidth w s
  | on_clearDrawing => clearDrawing s
  | on_saveDrawing => saveDrawing s
  | on_loadDrawingData dom => loadDrawingData dom s
  end.

Definition run (s : State) (evs : list Event) : State := fold_left step evs s.
End SingleCanvas.

(** ** Dual-pane variant: the canvas overlay of [DrawingAPI.js] *)

Module GlobalCanvas.
Import Canvas2D.
Local Open Scope Q_scope.

(** *** The permissive classifier *)

(** [isStylus]; the [force] test of the source has an empty body. *)
Definition isStylus (touch : Touch) : bool :=
  match touchType touch with
  | Some ty => bool_decide (ty = "stylus"%string)
  | None =>
      match radiusX touch, radiusY touch with
      | Some rx, Some ry =>
          let avgRadius := (rx + ry) / 2 in
          if Js.ltb avgRadius 8 then true
          else if Js.gtb avgRadius 15 then false
          else true
      | _, _ => true
      end
  end.

(** *** [drawingState] *)

Inductive Tool := pen | eraser.

Definition Tool_eqb (a b : Tool) : bool :=
  match a, b with pen, pen | eraser, eraser => true | _, _ => false end.

Inductive Pane := left_pane | right_pane.

Definition LINE_WIDTHS : list Q := [2; 4; 6; 8; 12].

(** A pane's canvas and context are created and dropped together, so one
    optional context stands for both. *)
Record DrawingState := {
  isActive : bool;
  isDrawing : bool;
  leftCtx : option Ctx;
  rightCtx : option Ctx;
  lessonId : option string;
  currentPane : option Pane;
  leftView : option string;
  rightView : option string;
  tool : Tool;
  color : string;
  lineWidth : Q;
  autoSaveTimer : option nat
}.

Definition initial : DrawingState :=
  {| isActive := false; isDrawing := false; leftCtx := None; rightCtx := None;
     lessonId := None; currentPane := None; leftView := None;
     rightView := None; tool := pen; color := "#ef4444"; lineWidth := 4;
     autoSaveTimer := None |}.

Definition set_isActive (v : bool) (d : DrawingState) : DrawingState :=
  {| isActive := v; isDrawing := isDrawing d; leftCtx := leftCtx d;
     rightCtx := rightCtx d; lessonId := lessonId d;
     currentPane := currentPane d; leftView := leftView d;
     rightView := rightView d; tool := tool d; color := color d;
     lineWidth := lineWidth d; autoSaveTimer := autoSaveTimer d |}.

Definition set_isDrawing (v : bool) (d : DrawingState) : DrawingState :=
  {| isActive := isActive d; isDrawing := v; leftCtx := leftCtx d;
     rightCtx := rightCtx d; lessonId := lessonId d;
     currentPane := currentPane d; leftView := leftView d;
     rightView := rightView d; tool := tool d; color := color d;
     lineWidth := lineWidth d; autoSaveTimer := autoSaveTimer d |}.

Definition set_leftCtx (v : option Ctx) (d : DrawingState) : DrawingState :=
  {| isActive := isActive d; isDrawing := isDrawing d; leftCtx := v;
     rightCtx := rightCtx d; lessonId := lessonId d;
     currentPane := currentPane d; leftView := leftView d;
     rightView := rightView d; tool := tool d; color := color d;
     lineWidth := lineWidth d; autoSaveTimer := autoSaveTimer d |}.

Definition set_rightCtx (v : option Ctx) (d : DrawingState) : DrawingState :=
  {| isActive := isActive d; isDrawing := isDrawing d; leftCtx := leftCtx d;
     rightCtx := v; lessonId := lessonId d;
     currentPane := currentPane d; leftView := leftView d;
     rightView := rightView d; tool := tool d; color := color d;
     lineWidth := lineWidth d; autoSaveTimer := autoSaveTimer d |}.

Definition set_currentPane (v : option Pane) (d : DrawingState) : DrawingState :=
  {| isActive := isActive d; isDrawing := isDrawing d; leftCtx := leftCtx d;
     rightCtx := rightCtx d; lessonId := lessonId d;
     currentPane := v; leftView := leftView d;
     rightView := rightView d; tool := tool d; color := color d;
     lineWidth := lineWidth d; autoSaveTimer := autoSaveTimer d |}.

Definition set_views (l r : option string) (d : DrawingState) : DrawingState :=
  {| isActive := isActive d; isDrawing := isDrawing d; leftCtx := leftCtx d;
     rightCtx := rightCtx d; lessonId := lessonId d;
     currentPane := currentPane d; leftView := l;
     rightView := r; tool := tool d; color := color d;
     lineWidth := lineWidth d; autoSaveTimer := autoSaveTimer d |}.

Definition set_tool (v : Tool) (d : DrawingState) : DrawingState :=
  {| isActive := isActive d; isDrawing := isDrawing d; leftCtx := leftCtx d;
     rightCtx := rightCtx d; lessonId := lessonId d;
     currentPane := currentPane d; leftView := leftView d;
     rightView := rightView d; tool := v; color := color d;
     lineWidth := lineWidth d; autoSaveTimer := autoSaveTimer d |}.

Definition set_color (v : string) (d : DrawingState) : DrawingState :=
  {| isActive := isActive d; isDrawing := isDrawing d; leftCtx := leftCtx d;
     rightCtx := rightCtx d; lessonId := lessonId d;
     currentPane := currentPane d; leftView := leftView d;
     rightView := rightView d; tool := tool d; color := v;
     lineWidth := lineWidth d; autoSaveTimer := autoSaveTimer d |}.

Definition set_lineWidth_setting (v : Q) (d : DrawingState) : DrawingState :=
  {| isActive := isActive d; isDrawing := isDrawing d; leftCtx := leftCtx d;
     rightCtx := rightCtx d; lessonId := lessonId d;
     currentPane := currentPane d; leftView := leftView d;
     rightView := rightView d; tool := tool d; color := color d;
     lineWidth := v; autoSaveTimer := autoSaveTimer d |}.

Definition set_autoSaveTimer (v : option nat) (d : DrawingState) : DrawingState :=
  {| isActive := isActive d; isDrawing := isDrawing d; leftCtx := leftCtx d;
     rightCtx := rightCtx d; lessonId := lessonId d;
     currentPane := currentPane d; leftView := leftView d;
     rightView := rightView d; tool := tool d; color := color d;
     lineWidth := lineWidth d; autoSaveTimer := v |}.

Definition ctx_of (p : Pane) (d : DrawingState) : option Ctx :=
  match p with left_pane => leftCtx d | right_pane => rightCtx d end.

Definition set_ctx_of (p : Pane) (c : Ctx) (d : DrawingState) : DrawingState :=
  match p with
  | left_pane => set_leftCtx (Some c) d
  | right_pane => set_rightCtx (Some c) d
  end.

(** *** Brush *)

Definition applyBrushSettings (d : DrawingState) (c : Ctx) : Ctx :=
  let c :=
    if Tool_eqb (tool d) eraser then
      let c := set_globalCompositeOperation destination_out c in
      let c := set_strokeStyle "rgba(0,0,0,1)" c in
      let c := Canvas2D.set_lineWidth (lineWidth d * 3) c in
      set_shadowBlur 0 c
    else
      let c := set_globalCompositeOperation source_over c in
      let c := set_strokeStyle (color d) c in
      let c := Canvas2D.set_lineWidth (lineWidth d) c in
      let c := set_shadowColor (color d +:+ "4D")%string c in
      set_shadowBlur 2 c in
  let c := set_lineCap "round" c in
  set_lineJoin "round" c.

(** [if (drawingState.leftCtx) applyBrushSettings(...)], then the same for
    the right context. *)
Definition apply_to_both (d : DrawingState) : DrawingState :=
  let d := set_leftCtx (applyBrushSettings d <$> leftCtx d) d in
  set_rightCtx (applyBrushSettings d <$> rightCtx d) d.

(** The cursor and iframe-mask updates of [setDrawingTool] are left out. *)
Definition setDrawingTool (t : Tool) (d : DrawingState) : DrawingState :=
  apply_to_both (set_tool t d).

Definition setLineWidth (w : Q) (d : DrawingState) : DrawingState :=
  apply_to_both (set_lineWidth_setting w d).

(** *** Mouse handlers *)

(** What a handler learns from the page: the pane under the pointer
    ([getCanvasAtPoint]) and the corner of each pane's canvas
    ([getBoundingClientRect]). *)
Record Layout := {
  hit : option Pane;
  originX : Pane -> Q;
  originY : Pane -> Q
}.

Definition getCanvasCoordinates (lay : Layout) (p : Pane) (cx cy : Q) : Q * Q :=
  (cx - originX lay p, cy - originY lay p).

Definition mousedown (lay : Layout) (cx cy : Q) (d : DrawingState) : DrawingState :=
  if negb (isActive d) then d else
  match hit lay with
  | None => d
  | Some p =>
      match ctx_of p d with
      | None => d
      | Some c =>
          let d := set_isDrawing true d in
          let d := set_currentPane (Some p) d in
          let coords := getCanvasCoordinates lay p cx cy in
          let c := applyBrushSettings d c in
          let c := beginPath c in
          let c := add_path (moveTo (fst coords) (snd coords)) c in
          set_ctx_of p c d
      end
  end.

(** With no context for the current pane the call [ctx.lineTo] raises and
    the state is left as it was. *)
Definition mousemove (lay : Layout) (cx cy : Q) (d : DrawingState) : DrawingState :=
  if negb (isActive d) || negb (isDrawing d) then d else
  match currentPane d with
  | None => d
  | Some p =>
      match ctx_of p d with
      | None => d
      | Some c =>
          let coords := getCanvasCoordinates lay p cx cy in
          let c := add_path (lineTo (fst coords) (snd coords)) c in
          set_ctx_of p (stroke c) d
      end
  end.

(** *** Timers and the autosave

    The page's event loop: a clock in milliseconds and the armed timers.
    The only timer callback of the drawing layer that saves is the one
    armed by [stopDrawing]; the page records when [saveDrawingData] and
    [loadDrawingData] were called. *)

Record Timer := { timer_id : nat; due : Z }.

Record Page := {
  drawing : DrawingState;
  clock : Z;
  next_id : nat;
  timers : list Timer;
  saveCalls : list Z;
  loadCalls : list Z
}.

Definition boot : Page :=
  {| drawing := initial; clock := 0; next_id := 1%nat; timers := [];
     saveCalls := []; loadCalls := [] |}.

Definition with_drawing (f : DrawingState -> DrawingState) (p : Page) : Page :=
  {| drawing := f (drawing p); clock := clock p; next_id := next_id p;
     timers := timers p; saveCalls := saveCalls p; loadCalls := loadCalls p |}.

(** [clearTimeout(id)]; [clearTimeout(null)] does nothing. *)
Definition clearTimeout (id : option nat) (p : Page) : Page :=
  match id with
  | None => p
  | Some i =>
      {| drawing := drawing p; clock := clock p; next_id := next_id p;
         timers := filter (fun t => timer_id t ≠ i) (timers p);
         saveCalls := saveCalls p; loadCalls := loadCalls p |}
  end.

(** [setTimeout(callback, delay)]: arms a timer and returns its id. *)
Definition setTimeout (delay : Z) (p : Page) : nat * Page :=
  (next_id p,
   {| drawing := drawing p; clock := clock p; next_id := S (next_id p);
      timers := timers p ++ [{| timer_id := next_id p; due := (clock p + delay)%Z |}];
      saveCalls := saveCalls p; loadCalls := loadCalls p |}).

(** Time passes until [t]: every timer due by then runs its callback
    [saveDrawingData()] at its due time and is disarmed. *)
Definition advance (t : Z) (p : Page) : Page :=
  if (t <? clock p)%Z then p else
  {| drawing := drawing p; clock := t; next_id := next_id p;
     timers := filter (fun tm => (t < due tm)%Z) (timers p);
     saveCalls := saveCalls p ++
                  (due <$> filter (fun tm => (due tm <= t)%Z) (timers p));
     loadCalls := loadCalls p |}.

Definition closePath_current (d : DrawingState) : DrawingState :=
  match currentPane d with
  | Some p =>
      match ctx_of p d with
      | Some c => set_ctx_of p (add_path closePath c) d
      | None => d
      end
  | None => d
  end.

Definition stopDrawing (p : Page) : Page :=
  let p := with_drawing (set_isDrawing false) p in
  let p := with_drawing closePath_current p in
  let p := clearTimeout (autoSaveTimer (drawing p)) p in
  let '(id, p) := setTimeout 1000 p in
  with_drawing (set_autoSaveTimer (Some id)) p.

(** [loadDrawingData()] is asynchronous; its call is recorded. *)
Definition call_loadDrawingData (p : Page) : Page :=
  {| drawing := drawing p; clock := clock p; next_id := next_id p;
     timers := timers p; saveCalls := saveCalls p;
     loadCalls := loadCalls p ++ [clock p] |}.

Definition updateViewTypes (l r : option string) (p : Page) : Page :=
  let p := clearTimeout (autoSaveTimer (drawing p)) p in
  let p := with_drawing (set_views l r) p in
  call_loadDrawingData p.

(** [clearRect] under [source-over], the composite mode put back after. *)
Definition clear_ctx (c : Ctx) : Ctx :=
  let currentOp := globalCompositeOperation (brush c) in
  let c := set_globalCompositeOperation source_over c in
  let c := clearAll c in
  set_globalCompositeOperation currentOp c.

Definition clearDrawing (p : Page) : Page :=
  let p := clearTimeout (autoSaveTimer (drawing p)) p in
  let p := with_drawing (fun d => set_leftCtx (clear_ctx <$> leftCtx d) d) p in
  with_drawing (fun d => set_rightCtx (clear_ctx <$> rightCtx d) d) p.

(** What can happen on the page between two moments. *)
Inductive Action :=
| act_mousedown (lay : Layout) (cx cy : Q)
| act_mousemove (lay : Layout) (cx cy : Q)
| act_stopDrawing
| act_setDrawingTool (t : Tool)
| act_setLineWidth (w : Q)
| act_updateViewTypes (l r : option string)
| act_clearDrawing
| act_wait (until : Z).

Definition perform (p : Page) (a : Action) : Page :=
  match a with
  | act_mousedown lay cx cy => with_drawing (mousedown lay cx cy) p
  | act_mousemove lay cx cy => with_drawing (mousemove lay cx cy) p
  | act_stopDrawing => stopDrawing p
  | act_setDrawingTool t => with_drawing (setDrawingTool t) p
  | act_setLineWidth w => with_drawing (setLineWidth w) p
  | act_updateViewTypes l r => updateViewTypes l r p
  | act_clearDrawing => clearDrawing p
  | act_wait t => advance t p
  end.

Definition play (p : Page) (acts : list Action) : Page := fold_left perform acts p.

(** Strokes ending at the given moments. *)
Definition strokes_ending (ts : list Z) : list Action :=
  flat_map (fun t => [act_wait t; act_stopDrawing]) ts.
End GlobalCanvas.

(** ** Persistence of a pane's raster: [DrawingAPI] client,
       [saveCanvasData], [loadCanvasData] *)

Module Persistence.
Local Open Scope Z_scope.

Definition STORAGE_KEY_PREFIX : string := "drawing_data_".

Record CompressionInfo := {
  format : string;
  quality : Q;
  originalSize : Z;
  compressedSize : Z;
  compressionRatio : Z
}.

(** The persisted record.  [canvasWidth] and [canvasHeight] are optional
    because records written before they existed are still read. *)
Record DrawingRecord := {
  version : string;
  lessonId : string;
  viewType : string;
  timestamp : Z;
  canvasWidth : option Z;
  canvasHeight : option Z;
  imageData : string;
  compressionInfo : option CompressionInfo
}.

(** A pane's canvas as the persistence code reads and writes it: its
    size, its RGBA buffer (four numbers a pixel) and its inline
    [style.opacity]. *)
Record Canvas := {
  width : Z;
  height : Z;
  pixels : list Z;
  opacity : string
}.

(** [ctx.getImageData(0, 0, canvas.width, canvas.height)]: raises
    [IndexSizeError] on a canvas without area. *)
Definition getImageData (c : Canvas) : option (list Z) :=
  if (width c =? 0) || (height c =? 0) then None else Some (pixels c).

(** [for (let i = 3; i < pixels.length; i += 4) if (pixels[i] > 0) ...]. *)
Fixpoint hasContent (px : list Z) : bool :=
  match px with
  | _ :: _ :: _ :: alpha :: rest => if 0 <? alpha then true else hasContent rest
  | _ => false
  end.





Definition storageKey (lesson view : string) : string :=
  (STORAGE_KEY_PREFIX +:+ lesson +:+ "_" +:+ view)%string.

(** *** The two tiers and what a call meets *)

Inductive Failure := network_error | http_status (status : Z).

Inductive Result (A : Type) :=
| resolved (a : A)
| rejected (err : Failure).
Arguments resolved {A} a.
Arguments rejected {A} err.

(** How the service answers the requests of one call. *)
Inductive Link := link_up | link_down | link_http (status : Z).

(** The conditions one call runs under: the link, whether the service
    reports [success] for a write, whether [localStorage.setItem] raises
    [QuotaExceededError], and [Date.now()]. *)
Record Env := {
  link : Link;
  server_accepts : bool;
  quota_exceeded : bool;
  now : Z
}.

Inductive IO :=
| io_post (lesson view : string) (r : DrawingRecord)
| io_delete (lesson view : string)
| io_get (lesson view : string)
| io_setItem (key : string) (r : DrawingRecord)
| io_removeItem (key : string)
| io_getItem (key : string)
| io_alert.

(** The remote tier, the local tier (values as records rather than their
    JSON text), and the requests and storage calls made so far. *)
Record World := {
  server : gmap (string * string) DrawingRecord;
  localStorage : gmap string DrawingRecord;
  io : list IO
}.

Definition emit (e : IO) (w : World) : World :=
  {| server := server w; localStorage := localStorage w; io := io w ++ [e] |}.

Definition set_server (v : gmap (string * string) DrawingRecord) (w : World) : World :=
  {| server := v; localStorage := localStorage w; io := io w |}.

Definition set_localStorage (v : gmap string DrawingRecord) (w : World) : World :=
  {| server := server w; localStorage := v; io := io w |}.

(** [DrawingAPI.request]: rejects on a network failure, a timeout or a
    status that is not ok. *)
Definition request (e : Env) : option Failure :=
  match link e with
  | link_up => None
  | link_down => Some network_error
  | link_http status => Some (http_status status)
  end.

(** [error.message.includes('404')] on the errors [request] raises. *)
Definition includes_404 (err : Failure) : bool :=
  match err with
  | http_status status => status =? 404
  | network_error => false
  end.

(** Modelled from the spec: the service behind [/api/drawings], whose code
    is not part of the client.  It keeps one record per
    [(lessonId, viewType)]; [POST] replaces it and answers [{success}],
    [DELETE] removes it, [GET] returns it or answers 404. *)
Definition service_post (e : Env) (lesson view : string) (r : DrawingRecord)
    (w : World) : bool * World :=
  if server_accepts e then (true, set_server (<[(lesson, view) := r]> (server w)) w)
  else (false, w).

(** Modelled from the spec: [DELETE /drawings/{lessonId}/{viewType}]. *)
Definition service_delete (lesson view : string) (w : World) : World :=
  set_server (delete (lesson, view) (server w)) w.

(** Modelled from the spec: [GET /drawings/{lessonId}/{viewType}]. *)
Definition service_get (lesson view : string) (w : World) : option DrawingRecord :=
  server w !! (lesson, view).

Definition saveDrawing (e : Env) (lesson view : string) (r : DrawingRecord)
    (w : World) : Result bool * World :=
  let w := emit (io_post lesson view r) w in
  match request e with
  | None => let '(success, w) := service_post e lesson view r w in
            (resolved success, w)
  | Some err => (rejected err, w)
  end.

Definition deleteDrawing (e : Env) (lesson view : string) (w : World)
    : Result unit * World :=
  let w := emit (io_delete lesson view) w in
  match request e with
  | None => (resolved (), service_delete lesson view w)
  | Some err => (rejected err, w)
  end.

(** [getDrawing]: a 404 is "no drawing" ([null]), other errors are raised
    again. *)
Definition getDrawing (e : Env) (lesson view : string) (w : World)
    : Result (option DrawingRecord) * World :=
  let w := emit (io_get lesson view) w in
  match request e with
  | None => (resolved (service_get lesson view w), w)
  | Some err =>
      if includes_404 err then (resolved None, w) else (rejected err, w)
  end.

(** [localStorage.setItem]: [false] stands for [QuotaExceededError]. *)
Definition setItem (e : Env) (key : string) (r : DrawingRecord) (w : World)
    : bool * World :=
  let w := emit (io_setItem key r) w in
  if quota_exceeded e then (false, w)
  else (true, set_localStorage (<[key := r]> (localStorage w)) w).

Definition removeItem (key : string) (w : World) : World :=
  set_localStorage (delete key (localStorage w)) (emit (io_removeItem key) w).

Definition getItem (key : string) (w : World) : option DrawingRecord * World :=
  (localStorage w !! key, emit (io_getItem key) w).

(** *** Compression and the save path *)

Definition MAX_WIDTH : Z := 2400.
Definition JPEG_QUALITY : Q := 0.7%Q.

(** [Math.round]. *)
Definition Math_round (q : Q) : Z := Qfloor (q + (1 # 2))%Q.

Record Compressed := {
  dataURL : string;
  c_format : string;
  c_quality : Q;
  c_originalSize : Z;
  c_compressedSize : Z;
  c_compressionRatio : Z;
  scaled : bool
}.


Section Browser.
(** The browser's codecs and rasterizer. *)
(** [canvas.toDataURL('image/png')]. *)
Variable toDataURL_png : Canvas -> string.
(** The canvas drawn at the target size over white, then
    [toDataURL('image/jpeg', quality)]. *)
Variable toDataURL_jpeg : Canvas -> Z -> Z -> Q -> string.
(** Whether an image with this source fires [onload] (or [onerror]). *)
Variable image_loads : string -> bool.
(** The buffer after [drawImage] of the decoded image on the cleared
    canvas, at its own size or stretched to the given one. *)
Variable drawImage : string -> option (Z * Z) -> Canvas -> list Z.

Definition compressCanvasData (canvas : Canvas) : Compressed :=
  let '(targetWidth, targetHeight) :=
    if MAX_WIDTH <? width canvas then
      let scale := (inject_Z MAX_WIDTH / inject_Z (width canvas))%Q in
      (MAX_WIDTH, Math_round (inject_Z (height canvas) * scale)%Q)
    else (width canvas, height canvas) in
  let originalDataURL := toDataURL_png canvas in
  let originalSize := Z.of_nat (String.length originalDataURL) in
  let compressedDataURL :=
    toDataURL_jpeg canvas targetWidth targetHeight JPEG_QUALITY in
  let compressedSize := Z.of_nat (String.length compressedDataURL) in
  let compressionRatio :=
    Math_round ((1 - inject_Z compressedSize / inject_Z originalSize) * 100)%Q in
  {| dataURL := compressedDataURL; c_format := "jpeg";
     c_quality := JPEG_QUALITY; c_originalSize := originalSize;
     c_compressedSize := compressedSize;
     c_compressionRatio := compressionRatio;
     scaled := negb (targetWidth =? width canvas) |}.

(** The record [saveCanvasData] builds for a surface with content. *)
Definition make_record (e : Env) (canvas : Canvas) (lesson view : string)
    : DrawingRecord :=
  let compressedData := compressCanvasData canvas in
  {| version := "2.0"; lessonId := lesson; viewType := view;
     timestamp := now e;
     canvasWidth := Some (width canvas);
     canvasHeight := Some (height canvas);
     imageData := dataURL compressedData;
     compressionInfo :=
       Some {| format := c_format compressedData;
               quality := c_quality compressedData;
               originalSize := c_originalSize compressedData;
               compressedSize := c_compressedSize compressedData;
               compressionRatio := c_compressionRatio compressedData |} |}.

(** The last write of [saveCanvasData], outside the inner [try]: a
    quota error reaches the outer [catch], which alerts and returns
    [false]. *)
Definition save_local_only (e : Env) (key : string) (r : DrawingRecord)
    (w : World) : bool * World :=
  let '(ok, w) := setItem e key r w in
  if ok then (true, w) else (false, emit io_alert w).

Definition saveCanvasData (e : Env) (canvas : Canvas) (lesson view : string)
    (w : World) : bool * World :=
  match getImageData canvas with
  | None => (false, w)
  | Some px =>
      let key := storageKey lesson view in
      if negb (hasContent px) then
        let '(_, w) := deleteDrawing e lesson view w in
        let w := removeItem key w in
        (true, w)
      else
        let drawingData := make_record e canvas lesson view in
        let '(result, w) := saveDrawing e lesson view drawingData w in
        match result with
        | resolved true =>
            let '(ok, w) := setItem e key drawingData w in
            if ok then (true, w) else save_local_only e key drawingData w
        | resolved false => save_local_only e key drawingData w
        | rejected _ => save_local_only e key drawingData w
        end
  end.

(** *** The load path *)



(** The server-first read at the head of [loadCanvasData]: the record
    found, if any, and the world after the reads and the cache write. *)
Definition fetch (e : Env) (lesson view : string) (w : World)
    : option DrawingRecord * World :=
  let '(res, w) := getDrawing e lesson view w in
  let '(drawingData, w) :=
    match res with
    | resolved (Some serverData) =>
        let '(_, w) := setItem e (storageKey lesson view) serverData w in
        (Some serverData, w)
    | resolved None => (None, w)
    | rejected _ => (None, w)
    end in
  match drawingData with
  | Some r => (Some r, w)
  | None => getItem (storageKey lesson view) w
  end.


End Browser.
End Persistence.

(** ** Vocabulary of the statements *)

Module Notions.
Import SingleCanvas.

(** A move event that keeps a pending gesture alive: exactly one touch,
    and the strict classifier accepts it. *)
Definition confirming (touches : list Touch) : bool :=
  match touches with
  | [touch] => fst (isStylus touch initial)
  | _ => false
  end.

(** The number of consecutive confirming moves a gesture starts with. *)
Fixpoint confirming_prefix (moves : list (Dom * list Touch)) : nat :=
  match moves with
  | (_, touches) :: rest =>
      if confirming touches then S (confirming_prefix rest) else O
  | [] => O
  end.

Definition move_events (moves : list (Dom * list Touch)) : list Event :=
  (fun m => on_touchmove (fst m) (snd m)) <$> moves.

(** No stroke in progress and no gesture waiting for confirmation. *)
Definition idle (s : State) : Prop :=
  isDrawing s = false /\ active (pendingStroke s) = false.

(** Drawing mode is on and a gesture waits for confirmation, [n] stylus
    samples counted so far. *)
Definition waiting (n : Z) (s : State) : Prop :=
  drawingActive s = true /\ isDrawing s = false
  /\ active (pendingStroke s) = true
  /\ confirmed (pendingStroke s) = false
  /\ confirmCount (pendingStroke s) = n.



(** Every stroke of a log has at least two points. *)
Definition log_ok (log : list Stroke) : Prop :=
  Forall (fun st => (2 <= length (points st))%nat) log.

(** The log in memory and every persisted log are well-formed. *)
Definition stored_ok (s : State) : Prop :=
  log_ok (drawingData s)
  /\ map_Forall (fun _ log => log_ok log) (localStorage s).

(** Moments that each come less than the debounce delay after the one
    before. *)
Fixpoint within_window (prev : Z) (ts : list Z) : Prop :=
  match ts with
  | [] => True
  | t :: rest => (prev <= t < prev + 1000)%Z /\ within_window t rest
  end.

(** Every armed timer is the one [drawingState.autoSaveTimer] names. *)
Definition tidy (p : GlobalCanvas.Page) : Prop :=
  Forall (fun tm => GlobalCanvas.autoSaveTimer (GlobalCanvas.drawing p)
                    = Some (GlobalCanvas.timer_id tm))
         (GlobalCanvas.timers p).

(** A buffer in which no pixel has a non-zero alpha channel, and one in
    which some pixel has (alpha bytes are never negative). *)
Definition transparent (px : list Z) : Prop :=
  forall i a, px !! (4 * i + 3)%nat = Some a -> a = 0%Z.

Definition inked (px : list Z) : Prop :=
  exists i a, px !! (4 * i + 3)%nat = Some a /\ (0 < a)%Z.

End Notions.

(** ** Sample inputs *)

Module Samples.
Local Open Scope Q_scope.



Definition pencil (cx cy : Q) : Touch :=
  {| touchType := Some "stylus"%string; radiusX := Some 1; radiusY := Some 1;
     clientX := cx; clientY := cy |}.

Definition finger (cx cy : Q) : Touch :=
  {| touchType := Some "direct"%string; radiusX := Some 20; radiusY := Some 20;
     clientX := cx; clientY := cy |}.

(** A page whose content wrapper and canvas both sit at the origin,
    scrolled by the given offset. *)
Definition page_at (scroll : Q) : SingleCanvas.Dom :=
  {| SingleCanvas.wrapperRect :=
       {| SingleCanvas.rect_left := 0; SingleCanvas.rect_top := 0;
          SingleCanvas.rect_right := 800; SingleCanvas.rect_bottom := 600 |};
     SingleCanvas.wrapperScrollTop := scroll;
     SingleCanvas.canvasRect :=
       {| SingleCanvas.rect_left := 0; SingleCanvas.rect_top := 0;
          SingleCanvas.rect_right := 800; SingleCanvas.rect_bottom := 600 |} |}.

(** The single-canvas page after drawing mode was switched on. *)
Definition drawing_on : SingleCanvas.State :=
  SingleCanvas.toggleDrawing SingleCanvas.initial.

Definition click (cx cy : Q) : SingleCanvas.MouseEvent :=
  {| SingleCanvas.mouseX := cx; SingleCanvas.mouseY := cy |}.

(** Stand-ins for the browser's codecs and rasterizer. *)
Definition png_of (c : Persistence.Canvas) : string :=
  "data:image/png;base64,iVBORw0KGgo=".

Definition jpeg_of (c : Persistence.Canvas) (w h : Z) (q : Q) : string :=
  "data:image/jpeg;base64,/9j/4AAQ".



(** One-pixel canvases, transparent and painted. *)
Definition blank_canvas : Persistence.Canvas :=
  {| Persistence.width := 1; Persistence.height := 1;
     Persistence.pixels := [0; 0; 0; 0]%Z; Persistence.opacity := "1" |}.

Definition inked_canvas : Persistence.Canvas :=
  {| Persistence.width := 1; Persistence.height := 1;
     Persistence.pixels := [239; 68; 68; 255]%Z; Persistence.opacity := "1" |}.

Definition record_of (ver lesson view : string) : Persistence.DrawingRecord :=
  {| Persistence.version := ver; Persistence.lessonId := lesson;
     Persistence.viewType := view; Persistence.timestamp := 1700000000000;
     Persistence.canvasWidth := None; Persistence.canvasHeight := None;
     Persistence.imageData := "data:image/jpeg;base64,/9j/4AAQ";
     Persistence.compressionInfo := None |}.

(** A world in which both tiers hold a record for [L2-01] / [notebook]. *)
Definition both_tiers : Persistence.World :=
  {| Persistence.server :=
       {[ ("L2-01", "notebook")%string := record_of "2.0" "L2-01" "notebook" ]};
     Persistence.localStorage :=
       {[ Persistence.storageKey "L2-01" "notebook"
            := record_of "2.0" "L2-01" "notebook" ]};
     Persistence.io := [] |}.

(** A world whose local tier alone holds the given record. *)
Definition local_only (r : Persistence.DrawingRecord) : Persistence.World :=
  {| Persistence.server := ∅;
     Persistence.localStorage :=
       {[ Persistence.storageKey "L2-01" "notebook" := r ]};
     Persistence.io := [] |}.

Definition online : Persistence.Env :=
  {| Persistence.link := Persistence.link_up;
     Persistence.server_accepts := true;
     Persistence.quota_exceeded := false;
     Persistence.now := 1700000000000 |}.

Definition offline : Persistence.Env :=
  {| Persistence.link := Persistence.link_down;
     Persistence.server_accepts := true;
     Persistence.quota_exceeded := false;
     Persistence.now := 1700000000000 |}.

(** A click without movement. *)
Definition tap_gesture : list SingleCanvas.Event :=
  [SingleCanvas.on_mousedown (page_at 0) (click 40 50) true;
   SingleCanvas.on_mouseup].

(** A stylus contact followed by two stylus moves. *)
Definition two_move_gesture : list SingleCanvas.Event :=
  [SingleCanvas.on_touchstart (page_at 0) [pencil 10 10];
   SingleCanvas.on_touchmove (page_at 0) [pencil 10 30];
   SingleCanvas.on_touchmove (page_at 0) [pencil 10 50]].
End Samples.

(** * Properties *)

(** ** Number operators *)

Section JsFacts.
Local Open Scope Q_scope.

Lemma ltb_lt a b : Js.ltb a b = true <-> a < b.
Proof.
  unfold Js.ltb. rewrite Qlt_alt.
  destruct (a ?= b); split; congruence.
Qed.

Lemma ltb_ge a b : Js.ltb a b = false <-> b <= a.
Proof.
  split; intros H.
  - apply Qnot_lt_le. intros Hlt. apply ltb_lt in Hlt. congruence.
  - destruct (Js.ltb a b) eqn:E; [|reflexivity].
    apply ltb_lt in E. exfalso. exact (Qlt_not_le _ _ E H).
Qed.


End JsFacts.

(** ** The stylus classifiers *)

Section Classifier.
Local Open Scope Q_scope.

(** The strict classifier's verdict does not depend on the page state:
    it accepts exactly [touchType = 'stylus']. *)
Lemma strict_isStylus_verdict touch s :
  fst (SingleCanvas.isStylus touch s)
  = bool_decide (touchType touch = Some "stylus"%string).
Proof.
  unfold SingleCanvas.isStylus.
  repeat case_bool_decide; simpl; congruence.
Qed.

(** The strict classifier leaves everything but the debug log alone. *)
Lemma strict_isStylus_state touch s :
  exists line,
    snd (SingleCanvas.isStylus touch s) = SingleCanvas.addDebugLog line s.
Proof.
  unfold SingleCanvas.isStylus, SingleCanvas.updateDebugResult.
  repeat case_bool_decide; simpl; eexists; reflexivity.
Qed.



End Classifier.

(** ** Delayed confirmation of touch gestures (single canvas) *)

Section Gesture.
Import SingleCanvas Notions Canvas2D.
Local Open Scope Q_scope.

(** Splits the classifier's pair into its verdict and the logged state. *)
Ltac classify touch s :=
  let b := fresh "verdict" in
  let s1 := fresh "s" in
  let E := fresh "E" in
  let line := fresh "line" in
  let Hs := fresh "Hs" in
  destruct (isStylus touch s) as [b s1] eqn:E;
  pose proof (strict_isStylus_verdict touch s) as Hv;
  destruct (strict_isStylus_state touch s) as [line Hs];
  rewrite E in Hv, Hs; simpl in Hv, Hs; subst b s1.

Lemma confirming_single touch s :
  confirming [touch] = fst (isStylus touch s).
Proof. unfold confirming. by rewrite !strict_isStylus_verdict. Qed.

(** A state that is neither drawing nor pending ignores touch moves. *)
Lemma idle_touchmove dom touches s :
  idle s ->
  idle (touchmove dom touches s)
  /\ surface (ctx (touchmove dom touches s)) = surface (ctx s)
  /\ drawingData (touchmove dom touches s) = drawingData s.
Proof.
  intros [Hd Hp]. unfold touchmove.
  destruct (drawingActive s); simpl; [|by repeat split].
  destruct touches as [|touch [|]]; simpl.
  - unfold stopDrawing; simpl. rewrite Hd. by repeat split.
  - rewrite Hp, Hd. simpl. by repeat split.
  - unfold stopDrawing; simpl. rewrite Hd. by repeat split.
Qed.

Lemma idle_moves moves s :
  idle s ->
  idle (run s (move_events moves))
  /\ surface (ctx (run s (move_events moves))) = surface (ctx s)
  /\ drawingData (run s (move_events moves)) = drawingData s.
Proof.
  revert s. induction moves as [|[dom touches] rest IH]; intros s Hs.
  - split; [exact Hs | split; reflexivity].
  - simpl. destruct (idle_touchmove dom touches s Hs) as (Hi & Hsf & Hdd).
    destruct (IH _ Hi) as (Hi' & Hsf' & Hdd').
    split; [exact Hi' | split; congruence].
Qed.

(** A touch start on an idle page paints nothing and either leaves the
    page idle or opens a pending gesture with one sample counted. *)
Lemma touchstart_from_idle dom touches s :
  idle s ->
  (idle (touchstart dom touches s) \/ waiting 1 (touchstart dom touches s))
  /\ surface (ctx (touchstart dom touches s)) = surface (ctx s)
  /\ drawingData (touchstart dom touches s) = drawingData s.
Proof.
  intros [Hd Hp]. unfold touchstart.
  destruct (drawingActive s) eqn:Ha; simpl; [|by split; [left|]].
  destruct touches as [|touch [|]]; simpl; try by split; [left|].
  classify touch s.
  destruct (bool_decide _); simpl.
  - destruct (outside _ _); simpl.
    + split; [left; by split|by split].
    + split; [right; by repeat split|by split].
  - split; [left; by split|by split].
Qed.

(** A waiting gesture is dropped by a move that does not confirm. *)
Lemma waiting_move_fails dom touches s :
  drawingActive s = true -> isDrawing s = false ->
  confirmed (pendingStroke s) = false ->
  confirming touches = false ->
  idle (touchmove dom touches s)
  /\ surface (ctx (touchmove dom touches s)) = surface (ctx s)
  /\ drawingData (touchmove dom touches s) = drawingData s.
Proof.
  intros Ha Hd Hc Hf. unfold touchmove. rewrite Ha. simpl.
  destruct touches as [|touch [|]]; simpl.
  - unfold stopDrawing; simpl. rewrite Hd. by repeat split.
  - rewrite Hd. simpl.
    destruct (active (pendingStroke s)) eqn:Hp; simpl; [|by repeat split].
    rewrite (confirming_single touch s) in Hf.
    classify touch s. simpl in Hf. rewrite Hf.
    unfold reconfirm. simpl. rewrite Hp, Hc. simpl. by repeat split.
  - unfold stopDrawing; simpl. rewrite Hd. by repeat split.
Qed.

(** The first confirming move keeps what the contact recorded. *)
Lemma first_move_keeps dom touches s :
  waiting 1 s -> confirming touches = true ->
  let s1 := touchmove dom touches s in
  waiting 2 s1
  /\ startX (pendingStroke s1) = startX (pendingStroke s)
  /\ startY (pendingStroke s1) = startY (pendingStroke s)
  /\ contentX (pendingStroke s1) = contentX (pendingStroke s)
  /\ contentY (pendingStroke s1) = contentY (pendingStroke s)
  /\ ctx s1 = ctx s /\ drawingData s1 = drawingData s.
Proof.
  intros (Ha & Hd & Hp & Hc & Hn) Hf. cbv zeta. unfold touchmove.
  rewrite Ha. simpl.
  destruct touches as [|touch [|]]; simpl; try discriminate.
  rewrite Hp. simpl.
  rewrite (confirming_single touch s) in Hf.
  classify touch s. simpl in Hf. rewrite Hf.
  unfold reconfirm. simpl. rewrite Hp, Hc, Hn. simpl. rewrite Hd.
  by repeat split.
Qed.

(** C1, the claim fails: the contact itself is counted as the first
    sample ([confirmCount = 1]), so a stylus contact followed by only two
    stylus moves is confirmed and the second move already paints. *)
Lemma two_stylus_moves_paint :
  idle Samples.drawing_on
  /\ length Samples.two_move_gesture = 3%nat
  /\ surface (ctx Samples.drawing_on) = []
  /\ paint_path <$> surface (ctx (run Samples.drawing_on Samples.two_move_gesture))
     = [[moveTo 10 10; lineTo 10 50]]
  /\ isDrawing (run Samples.drawing_on Samples.two_move_gesture) = true.
Proof. vm_compute. repeat split. Qed.

(** C1 as amended: in the single-canvas touch handlers a gesture that
    starts on an idle page and whose moves begin with fewer than two
    consecutive confirming moves (one touch, classified as stylus) paints
    nothing, commits nothing and ends not drawing; and a move that does
    not confirm drops a gesture that waits for confirmation back to idle
    without painting. *)
Theorem palm_rejection s dom0 touches0 moves :
  idle s ->
  (confirming_prefix moves < 2)%nat ->
  (let s' := run s (on_touchstart dom0 touches0 :: move_events moves) in
   surface (ctx s') = surface (ctx s)
   /\ drawingData s' = drawingData s
   /\ isDrawing s' = false)
  /\ (forall dom touches s1,
        drawingActive s1 = true -> isDrawing s1 = false ->
        confirmed (pendingStroke s1) = false ->
        confirming touches = false ->
        idle (touchmove dom touches s1)
        /\ surface (ctx (touchmove dom touches s1)) = surface (ctx s1)).
Proof.
  intros Hidle Hshort. split.
  2:{ intros dom touches s1 Ha Hd Hc Hf.
      destruct (waiting_move_fails dom touches s1 Ha Hd Hc Hf) as (? & ? & _).
      by split. }
  cbv zeta. simpl.
  destruct (touchstart_from_idle dom0 touches0 s Hidle) as (Hcase & Hsf & Hdd).
  set (s1 := touchstart dom0 touches0 s) in *.
  assert (Hgoal : forall s2, idle s2 -> surface (ctx s2) = surface (ctx s) ->
            drawingData s2 = drawingData s -> forall rest,
            surface (ctx (run s2 (move_events rest))) = surface (ctx s)
            /\ drawingData (run s2 (move_events rest)) = drawingData s
            /\ isDrawing (run s2 (move_events rest)) = false).
  { intros s2 Hi H1 H2 rest.
    destruct (idle_moves rest s2 Hi) as ([Hnd _] & H3 & H4).
    split; [congruence | split; [congruence | exact Hnd]]. }
  destruct Hcase as [Hi | Hw]; [by apply Hgoal|].
  destruct moves as [|[dom1 touches1] rest1].
  { simpl. destruct Hw as (_ & Hd & _). by repeat split. }
  simpl in Hshort |- *.
  destruct (confirming touches1) eqn:Hc1.
  2:{ destruct Hw as (Ha & Hd & _ & Hc & _).
      destruct (waiting_move_fails dom1 touches1 s1 Ha Hd Hc Hc1) as (Hi & H1 & H2).
      apply Hgoal; [exact Hi | congruence | congruence]. }
  destruct (first_move_keeps dom1 touches1 s1 Hw Hc1)
    as (Hw2 & _ & _ & _ & _ & H1 & H2).
  apply (f_equal surface) in H1.
  destruct rest1 as [|[dom2 touches2] rest2].
  { simpl. destruct Hw2 as (_ & Hd & _). split; [congruence|split; [congruence|done]]. }
  simpl in Hshort |- *.
  destruct (confirming touches2) eqn:Hc2; [lia|].
  destruct Hw2 as (Ha & Hd & _ & Hc & _).
  destruct (waiting_move_fails dom2 touches2 _ Ha Hd Hc Hc2) as (Hi & H3 & H4).
  apply Hgoal; [exact Hi | congruence | congruence].
Qed.

Lemma palm_rejection_witness :
  surface (ctx (run Samples.drawing_on
                  [on_touchstart (Samples.page_at 0) [Samples.pencil 10 10];
                   on_touchmove (Samples.page_at 0) [Samples.pencil 10 30];
                   on_touchmove (Samples.page_at 0) [Samples.finger 10 50];
                   on_touchmove (Samples.page_at 0) [Samples.pencil 10 70]]))
  = surface (ctx Samples.drawing_on).
Proof.
  apply (proj1 (palm_rejection Samples.drawing_on (Samples.page_at 0)
                  [Samples.pencil 10 10]
                  [(Samples.page_at 0, [Samples.pencil 10 30]);
                   (Samples.page_at 0, [Samples.finger 10 50]);
                   (Samples.page_at 0, [Samples.pencil 10 70])]
                  ltac:(split; reflexivity) ltac:(simpl; lia))).
Defined.





End Gesture.

(** ** Scroll-independent stroke coordinates (single canvas) *)

Section ScrollReplay.
Import SingleCanvas Notions Canvas2D.
Local Open Scope Q_scope.






End ScrollReplay.

(** ** Short strokes never reach the log (single canvas) *)

Section StrokeLog.
Import SingleCanvas Notions Canvas2D.

Lemma stored_ok_eq s s' :
  drawingData s' = drawingData s -> localStorage s' = localStorage s ->
  stored_ok s -> stored_ok s'.
Proof. unfold stored_ok. by intros -> ->. Qed.

Lemma saveDrawingToStorage_ok s :
  stored_ok s -> stored_ok (saveDrawingToStorage s).
Proof.
  intros [Hlog Hstore]. unfold saveDrawingToStorage.
  case_bool_decide; [by split|]. split; [exact Hlog|].
  simpl. by apply map_Forall_insert_2.
Qed.

(** A gesture that ends with fewer than two points leaves the log and the
    persisted data as they were. *)
Lemma stopDrawing_discards s :
  match currentStroke s with
  | Some st => (length (points st) < 2)%nat
  | None => True
  end ->
  drawingData (stopDrawing s) = drawingData s
  /\ localStorage (stopDrawing s) = localStorage s.
Proof.
  intros Hshort. unfold stopDrawing.
  destruct (isDrawing s); simpl; [|by split].
  destruct (currentStroke s) as [st|]; simpl; [|by split].
  assert (Hlt : (1 <? length (points st))%nat = false) by (apply Nat.ltb_ge; lia).
  rewrite Hlt. by split.
Qed.

Lemma stopDrawing_ok s : stored_ok s -> stored_ok (stopDrawing s).
Proof.
  intros Hok. unfold stopDrawing.
  destruct (isDrawing s); simpl; [|exact Hok].
  destruct (currentStroke s) as [st|] eqn:Hst; simpl;
    [|by eapply stored_ok_eq; [..|exact Hok]].
  destruct (1 <? length (points st))%nat eqn:Hlen;
    [|by eapply stored_ok_eq; [..|exact Hok]].
  apply Nat.ltb_lt in Hlen.
  match goal with
  | |- stored_ok (set_ctx _ (set_currentStroke _ (saveDrawingToStorage ?x))) =>
      assert (Hx : stored_ok x)
  end.
  { destruct Hok as [Hlog Hstore]. split; [|exact Hstore]. simpl.
    apply Forall_app. split; [exact Hlog|]. apply Forall_singleton. lia. }
  apply saveDrawingToStorage_ok in Hx.
  by eapply stored_ok_eq; [..|exact Hx].
Qed.

Lemma isStylus_ok touch s :
  stored_ok s -> stored_ok (snd (isStylus touch s)).
Proof.
  intros Hok. destruct (strict_isStylus_state touch s) as [line ->].
  by eapply stored_ok_eq; [..|exact Hok].
Qed.

Lemma touchmove_ok dom touches s :
  stored_ok s -> stored_ok (touchmove dom touches s).
Proof.
  intros Hok. unfold touchmove.
  destruct (drawingActive s); simpl; [|exact Hok].
  assert (Hreset : stored_ok (stopDrawing
            (set_pendingStroke (reset_pending (pendingStroke s)) s))).
  { apply stopDrawing_ok. by eapply stored_ok_eq; [..|exact Hok]. }
  destruct touches as [|touch [|]]; [exact Hreset| |exact Hreset].
  destruct (negb (active (pendingStroke s)) && negb (isDrawing s)); [exact Hok|].
  pose proof (isStylus_ok touch s Hok) as Hs1.
  destruct (isStylus touch s) as [verdict s1]. simpl in Hs1.
  unfold reconfirm.
  destruct (active (pendingStroke s1) && negb (confirmed (pendingStroke s1)));
    [destruct verdict; simpl|simpl].
  - match goal with |- context [(3 <=? ?n)%Z] => destruct (3 <=? n)%Z end; simpl.
    + by eapply stored_ok_eq; [..|exact Hs1].
    + destruct (isDrawing s1); simpl; [destruct (currentStroke s1)|];
        by eapply stored_ok_eq; [..|exact Hs1].
  - by eapply stored_ok_eq; [..|exact Hs1].
  - destruct (isDrawing s1); simpl; [|exact Hs1].
    destruct verdict; simpl.
    + destruct (currentStroke s1); by eapply stored_ok_eq; [..|exact Hs1].
    + apply stopDrawing_ok in Hs1. by eapply stored_ok_eq; [..|exact Hs1].
Qed.

Lemma step_ok s ev : stored_ok s -> stored_ok (step s ev).
Proof.
  intros Hok. destruct ev; simpl.
  - unfold mousedown, startDrawing.
    destruct (drawingActive s); simpl; [|exact Hok].
    destruct inContent; simpl; [|exact Hok].
    by eapply stored_ok_eq; [..|exact Hok].
  - unfold draw.
    destruct (negb (isDrawing s) || negb (drawingActive s)); [exact Hok|].
    destruct (currentStroke s); [|exact Hok].
    by eapply stored_ok_eq; [..|exact Hok].
  - by apply stopDrawing_ok.
  - unfold touchstart.
    destruct (drawingActive s); simpl; [|exact Hok].
    destruct touches as [|touch [|]]; try exact Hok.
    pose proof (isStylus_ok touch s Hok) as Hs1.
    destruct (isStylus touch s) as [verdict s1]. simpl in Hs1.
    destruct verdict; [destruct (outside _ _)|];
      by eapply stored_ok_eq; [..|exact Hs1].
  - by apply touchmove_ok.
  - unfold touchend.
    set (s1 := if active (pendingStroke s) then _ else s).
    assert (H1 : stored_ok s1).
    { subst s1. destruct (active (pendingStroke s)); [|exact Hok].
      by eapply stored_ok_eq; [..|exact Hok]. }
    destruct (isDrawing s1); [|exact H1].
    apply stopDrawing_ok.
    destruct changedTouches as [|touch ?]; [exact H1|by apply isStylus_ok].
  - by eapply stored_ok_eq; [..|exact Hok].
  - exact Hok.
  - exact Hok.
  - exact Hok.
  - exact Hok.
  - unfold clearDrawing. apply saveDrawingToStorage_ok.
    destruct Hok as [_ Hstore]. split; [by apply Forall_nil|exact Hstore].
  - by apply saveDrawingToStorage_ok.
  - unfold loadDrawingData. case_bool_decide; [exact Hok|].
    destruct Hok as [Hlog Hstore].
    destruct (localStorage s !! storageKey (currentFileName s)) as [saved|] eqn:Hget.
    + split; [|exact Hstore]. simpl. by eapply Hstore.
    + split; [by apply Forall_nil|exact Hstore].
Qed.

(** C10: whatever the page does, every stroke in the log in memory and in
    every persisted log keeps at least two points; and [stopDrawing] on a
    current stroke of fewer than two points changes neither the log nor
    the persisted data. *)
Theorem short_strokes_discarded s evs :
  stored_ok s ->
  stored_ok (run s evs)
  /\ (forall s',
        match currentStroke s' with
        | Some st => (length (points st) < 2)%nat
        | None => True
        end ->
        drawingData (stopDrawing s') = drawingData s'
        /\ localStorage (stopDrawing s') = localStorage s').
Proof.
  intros Hok. split; [|exact stopDrawing_discards].
  revert s Hok. induction evs as [|ev rest IH]; intros s Hok; [exact Hok|].
  simpl. apply IH. by apply step_ok.
Qed.

Lemma short_strokes_discarded_witness :
  stored_ok (run Samples.drawing_on Samples.tap_gesture).
Proof.
  apply (proj1 (short_strokes_discarded Samples.drawing_on Samples.tap_gesture
                  (conj (Forall_nil_2 _) (map_Forall_empty _)))).
Defined.
End StrokeLog.

(** ** Eraser brush *)

Section Eraser.
Import Canvas2D.
Local Open Scope Q_scope.

Lemma set_lineWidth_positive v c :
  0 < v -> lineWidth (brush (set_lineWidth v c)) = v.
Proof. intros Hv. simpl. apply ltb_lt in Hv. by rewrite Hv. Qed.

Lemma LINE_WIDTHS_positive : Forall (fun w => 0 < w) GlobalCanvas.LINE_WIDTHS.
Proof. repeat constructor. Qed.


End Eraser.

(** ** Debounced autosave (dual pane) *)

Section Autosave.
Import GlobalCanvas Notions.
Local Open Scope Z_scope.

Lemma mousedown_timer lay cx cy d :
  autoSaveTimer (mousedown lay cx cy d) = autoSaveTimer d.
Proof.
  unfold mousedown. destruct (isActive d); simpl; [|done].
  destruct (hit lay) as [[]|]; simpl;
    [destruct (leftCtx d)|destruct (rightCtx d)|]; done.
Qed.

Lemma mousemove_timer lay cx cy d :
  autoSaveTimer (mousemove lay cx cy d) = autoSaveTimer d.
Proof.
  unfold mousemove. destruct (negb (isActive d) || negb (isDrawing d)); [done|].
  destruct (currentPane d) as [[]|]; simpl;
    [destruct (leftCtx d)|destruct (rightCtx d)|]; done.
Qed.

Lemma with_drawing_tidy f p :
  (forall d, autoSaveTimer (f d) = autoSaveTimer d) ->
  tidy p -> tidy (with_drawing f p).
Proof. unfold tidy. simpl. intros Hf. by rewrite Hf. Qed.

(** On a tidy page, cancelling the autosave timer leaves no timer armed. *)
Lemma clearTimeout_all p :
  tidy p -> timers (clearTimeout (autoSaveTimer (drawing p)) p) = [].
Proof.
  unfold tidy. intros Ht.
  destruct (autoSaveTimer (drawing p)) as [i|] eqn:Hi; simpl.
  - induction (timers p) as [|tm rest IH]; [done|].
    apply Forall_cons in Ht as [Hid Hrest].
    rewrite filter_cons_False; [by apply IH|].
    intros Hne. apply Hne. congruence.
  - destruct (timers p) as [|tm rest]; [done|].
    by apply Forall_cons in Ht as [? _].
Qed.

Lemma clearTimeout_drawing i p : drawing (clearTimeout i p) = drawing p.
Proof. by destruct i. Qed.

Lemma clearTimeout_saveCalls i p : saveCalls (clearTimeout i p) = saveCalls p.
Proof. by destruct i. Qed.

Lemma clearTimeout_clock i p : clock (clearTimeout i p) = clock p.
Proof. by destruct i. Qed.

Lemma stopDrawing_arms p :
  tidy p ->
  exists id,
    timers (stopDrawing p) = [{| timer_id := id; due := clock p + 1000 |}]
    /\ autoSaveTimer (drawing (stopDrawing p)) = Some id
    /\ clock (stopDrawing p) = clock p
    /\ saveCalls (stopDrawing p) = saveCalls p.
Proof.
  intros Ht. unfold stopDrawing.
  set (p1 := with_drawing closePath_current (with_drawing (set_isDrawing false) p)).
  assert (Ht1 : tidy p1).
  { subst p1. apply with_drawing_tidy.
    - intros d. unfold closePath_current.
      destruct (currentPane d) as [[]|]; simpl;
        [destruct (leftCtx d)|destruct (rightCtx d)|]; done.
    - by apply with_drawing_tidy. }
  pose proof (clearTimeout_all p1 Ht1) as Hnone.
  pose proof (clearTimeout_clock (autoSaveTimer (drawing p1)) p1) as Hclk.
  pose proof (clearTimeout_saveCalls (autoSaveTimer (drawing p1)) p1) as Hsc.
  remember (clearTimeout (autoSaveTimer (drawing p1)) p1) as p2.
  unfold setTimeout. simpl. rewrite Hnone, Hclk, Hsc. simpl.
  eexists. by repeat split.
Qed.

Lemma advance_tidy t p : tidy p -> tidy (advance t p).
Proof.
  unfold tidy, advance. intros Ht. destruct (t <? clock p); [done|]. simpl.
  apply Forall_forall. intros tm Hin. apply list_elem_of_filter in Hin as [_ Hin].
  rewrite Forall_forall in Ht. by apply Ht.
Qed.

Lemma perform_tidy p a : tidy p -> tidy (perform p a).
Proof.
  intros Ht. destruct a; simpl.
  - apply with_drawing_tidy; [apply mousedown_timer|done].
  - apply with_drawing_tidy; [apply mousemove_timer|done].
  - destruct (stopDrawing_arms p Ht) as (id & Htm & Hid & _).
    unfold tidy. rewrite Htm, Hid. by apply Forall_singleton.
  - by apply with_drawing_tidy.
  - by apply with_drawing_tidy.
  - unfold tidy, updateViewTypes. simpl.
    rewrite (clearTimeout_all p Ht). apply Forall_nil_2.
  - unfold tidy, clearDrawing. simpl.
    rewrite (clearTimeout_all p Ht). apply Forall_nil_2.
  - by apply advance_tidy.
Qed.

Lemma play_tidy acts : forall p, tidy p -> tidy (play p acts).
Proof.
  induction acts as [|a rest IH]; intros p Ht; [done|].
  simpl. apply IH. by apply perform_tidy.
Qed.

(** With no timer armed, waiting saves nothing. *)
Lemma advance_idle T p : timers p = [] -> saveCalls (advance T p) = saveCalls p.
Proof.
  intros Hnone. unfold advance. destruct (T <? clock p); [done|].
  simpl. rewrite Hnone, filter_nil. simpl. by rewrite app_nil_r.
Qed.

(** A burst of strokes keeps re-arming the one timer; it fires once, a
    second after the last stroke. *)
Lemma burst_fires_once T rest : forall p t id,
  timers p = [{| timer_id := id; due := t + 1000 |}] ->
  autoSaveTimer (drawing p) = Some id ->
  clock p = t ->
  within_window t rest ->
  default t (last rest) + 1000 <= T ->
  saveCalls (play p (strokes_ending rest ++ [act_wait T]))
  = saveCalls p ++ [default t (last rest) + 1000].
Proof.
  induction rest as [|t' rest IH]; intros p t id Htm Hid Hclk Hwin HT.
  - simpl in *. unfold advance.
    destruct (T <? clock p) eqn:Hlt; [apply Z.ltb_lt in Hlt; lia|].
    simpl. rewrite Htm. rewrite filter_cons_True by (simpl; lia).
    by rewrite filter_nil.
  - destruct Hwin as [Hgap Hwin]. simpl.
    set (p1 := advance t' p).
    assert (H1 : timers p1 = timers p /\ drawing p1 = drawing p
                 /\ clock p1 = t' /\ saveCalls p1 = saveCalls p).
    { subst p1. unfold advance.
      destruct (t' <? clock p) eqn:Hlt; [apply Z.ltb_lt in Hlt; lia|].
      simpl. rewrite Htm.
      rewrite filter_cons_True by (simpl; lia).
      rewrite filter_cons_False by (simpl; lia).
      rewrite !filter_nil. simpl. by rewrite app_nil_r. }
    destruct H1 as (Htm1 & Hd1 & Hclk1 & Hsc1).
    assert (Ht1 : tidy p1).
    { unfold tidy. rewrite Htm1, Hd1, Htm, Hid. apply Forall_singleton. done. }
    destruct (stopDrawing_arms p1 Ht1) as (id' & Htm2 & Hid2 & Hclk2 & Hsc2).
    rewrite Hclk1 in Htm2, Hclk2.
    rewrite (IH (stopDrawing p1) t' id' Htm2 Hid2 Hclk2 Hwin).
    + rewrite Hsc2, Hsc1. do 2 f_equal.
      rewrite last_cons. by destruct (last rest).
    + rewrite last_cons in HT. by destruct (last rest).
Qed.

(** C6: on a page with no autosave pending, strokes that each end less
    than 1000 ms after the one before cause exactly one call of
    [saveDrawingData], 1000 ms after the last of them; and on any page
    reached from start-up, [clearDrawing] and [updateViewTypes] cancel the
    pending autosave, so no amount of waiting afterwards saves. *)
Theorem debounced_autosave p t1 rest T :
  timers p = [] ->
  clock p <= t1 ->
  within_window t1 rest ->
  default t1 (last rest) + 1000 <= T ->
  saveCalls (play p (strokes_ending (t1 :: rest) ++ [act_wait T]))
  = saveCalls p ++ [default t1 (last rest) + 1000]
  /\ (forall acts l r T',
        let q := play boot acts in
        timers (clearDrawing q) = []
        /\ saveCalls (advance T' (clearDrawing q)) = saveCalls q
        /\ timers (updateViewTypes l r q) = []
        /\ saveCalls (advance T' (updateViewTypes l r q)) = saveCalls q).
Proof.
  intros Hnone Hclk Hwin HT. split.
  - simpl. set (p1 := advance t1 p).
    assert (H1 : timers p1 = [] /\ clock p1 = t1
                 /\ saveCalls p1 = saveCalls p).
    { subst p1. unfold advance.
      destruct (t1 <? clock p) eqn:Hlt; [apply Z.ltb_lt in Hlt; lia|].
      simpl. rewrite Hnone, !filter_nil. simpl. by rewrite app_nil_r. }
    destruct H1 as (Htm1 & Hclk1 & Hsc1).
    assert (Ht1 : tidy p1) by (unfold tidy; rewrite Htm1; apply Forall_nil_2).
    destruct (stopDrawing_arms p1 Ht1) as (id & Htm2 & Hid2 & Hclk2 & Hsc2).
    rewrite Hclk1 in Htm2, Hclk2.
    rewrite (burst_fires_once T rest (stopDrawing p1) t1 id Htm2 Hid2 Hclk2 Hwin HT).
    by rewrite Hsc2, Hsc1.
  - intros acts l r T'. cbv zeta.
    assert (Hq : tidy (play boot acts)).
    { apply play_tidy. unfold tidy. apply Forall_nil_2. }
    set (q := play boot acts) in *.
    pose proof (clearTimeout_all q Hq) as Hcl.
    assert (Hc : timers (clearDrawing q) = []) by (unfold clearDrawing; simpl; exact Hcl).
    assert (Hu : timers (updateViewTypes l r q) = [])
      by (unfold updateViewTypes; simpl; exact Hcl).
    split; [exact Hc|]. split; [|split; [exact Hu|]].
    + rewrite (advance_idle T' _ Hc). unfold clearDrawing. simpl.
      apply clearTimeout_saveCalls.
    + rewrite (advance_idle T' _ Hu). unfold updateViewTypes. simpl.
      apply clearTimeout_saveCalls.
Qed.

Lemma debounced_autosave_witness :
  saveCalls (play boot (strokes_ending [100; 600; 1500; 2400] ++ [act_wait 10000]))
  = saveCalls boot ++ [3400].
Proof.
  apply (proj1 (debounced_autosave boot 100 [600; 1500; 2400] 10000
                  eq_refl ltac:(simpl; lia) ltac:(simpl; lia) ltac:(simpl; lia))).
Defined.
End Autosave.

(** ** Two-tier persistence (dual pane) *)

Section Emptiness.
Import Persistence Notions.
Local Open Scope Z_scope.

(** The emptiness scan finds content exactly in an inked buffer. *)
Lemma hasContent_inked px : hasContent px = true <-> inked px.
Proof.
  assert (H : forall n px, (length px <= n)%nat ->
                (hasContent px = true <-> inked px)).
  { clear px. induction n as [|n IH]; intros px Hlen.
    - destruct px; [|simpl in Hlen; lia]. simpl. split; [done|].
      intros (i & a & Hl & _). by rewrite lookup_nil in Hl.
    - destruct px as [|r [|g [|b [|alpha rest]]]];
        try (simpl; split; [done|];
             intros (i & a & Hl & _); apply lookup_lt_Some in Hl;
             simpl in Hl; lia).
      simpl. destruct (0 <? alpha) eqn:Ha.
      + split; [|done]. intros _. exists 0%nat, alpha.
        split; [done|by apply Z.ltb_lt].
      + rewrite (IH rest) by (simpl in Hlen; lia).
        split.
        * intros (i & a & Hl & Hpos). exists (S i), a. split; [|done].
          replace (4 * S i + 3)%nat with (S (S (S (S (4 * i + 3))))) by lia.
          done.
        * intros (i & a & Hl & Hpos). destruct i as [|i].
          { simpl in Hl. injection Hl as <-. apply Z.ltb_ge in Ha. lia. }
          exists i, a. split; [|done].
          replace (4 * S i + 3)%nat with (S (S (S (S (4 * i + 3))))) in Hl by lia.
          done. }
  by apply (H (length px)).
Qed.

Lemma hasContent_transparent px : transparent px -> hasContent px = false.
Proof.
  intros Ht. destruct (hasContent px) eqn:E; [|done].
  apply hasContent_inked in E as (i & a & Hl & Hpos).
  apply Ht in Hl. lia.
Qed.
End Emptiness.

Section SaveTiers.
Import Persistence Notions.
Local Open Scope Z_scope.

Variable toDataURL_png : Canvas -> string.
Variable toDataURL_jpeg : Canvas -> Z -> Z -> Q -> string.

(** C3: saving a surface with content posts the record to the service
    before anything else; when the request fails (network error, timeout
    or HTTP status) and the local write succeeds, the record is written to
    [localStorage] only and the call returns [true]; when the service
    accepts the record, the same record is also written to
    [localStorage]. *)
Theorem save_falls_back e canvas lesson view w px :
  getImageData canvas = Some px ->
  inked px ->
  let r := make_record toDataURL_png toDataURL_jpeg e canvas lesson view in
  let key := storageKey lesson view in
  let result := saveCanvasData toDataURL_png toDataURL_jpeg e canvas lesson view w in
  (exists rest, io (snd result) = io w ++ io_post lesson view r :: rest)
  /\ (request e <> None -> quota_exceeded e = false ->
        fst result = true
        /\ localStorage (snd result) = <[key := r]> (localStorage w)
        /\ server (snd result) = server w
        /\ io (snd result) = io w ++ [io_post lesson view r; io_setItem key r])
  /\ (request e = None -> server_accepts e = true -> quota_exceeded e = false ->
        fst result = true
        /\ server (snd result) = <[(lesson, view) := r]> (server w)
        /\ localStorage (snd result) = <[key := r]> (localStorage w)
        /\ io (snd result) = io w ++ [io_post lesson view r; io_setItem key r]).
Proof.
  intros Hpx Hink. apply hasContent_inked in Hink. cbv zeta.
  unfold saveCanvasData. rewrite Hpx, Hink. simpl.
  unfold saveDrawing, save_local_only, setItem, service_post.
  split; [|split].
  - destruct (request e); simpl.
    + destruct (quota_exceeded e); simpl; rewrite <- !app_assoc; eexists; reflexivity.
    + destruct (server_accepts e); simpl;
        destruct (quota_exceeded e); simpl; rewrite <- !app_assoc;
        eexists; reflexivity.
  - intros Hfail Hquota. destruct (request e); [|done]. simpl.
    rewrite Hquota. simpl. rewrite <- app_assoc. done.
  - intros Hok Hacc Hquota. rewrite Hok, Hacc. simpl.
    rewrite Hquota. simpl. rewrite <- app_assoc. done.
Qed.

(** C4 as amended: saving a surface that has area and no pixel with a
    non-zero alpha returns [true], stores nothing, and leaves the key
    absent from [localStorage]; the service is asked to delete the record,
    so the key is absent there too when that request succeeds, while a
    failed request leaves the remote tier as it was. *)
Theorem empty_surface_removed e canvas lesson view w px :
  getImageData canvas = Some px ->
  transparent px ->
  let key := storageKey lesson view in
  let result := saveCanvasData toDataURL_png toDataURL_jpeg e canvas lesson view w in
  fst result = true
  /\ localStorage (snd result) !! key = None
  /\ io (snd result) = io w ++ [io_delete lesson view; io_removeItem key]
  /\ (request e = None -> server (snd result) !! (lesson, view) = None)
  /\ (request e <> None -> server (snd result) = server w).
Proof.
  intros Hpx Hempty. apply hasContent_transparent in Hempty. cbv zeta.
  unfold saveCanvasData. rewrite Hpx, Hempty. simpl.
  unfold deleteDrawing, removeItem.
  destruct (request e) eqn:Hreq; simpl; rewrite <- app_assoc;
    (split; [done|]); (split; [apply lookup_delete_eq|]); (split; [done|]);
    split; try done.
  intros _. apply lookup_delete_eq.
Qed.
End SaveTiers.

Section LoadTiers.
Import Persistence Notions.
Local Open Scope Z_scope.

Variable image_loads : string -> bool.
Variable drawImage : string -> option (Z * Z) -> Canvas -> list Z.

(** Where [loadCanvasData] takes its record from: the service when it
    answers with one, else [localStorage]. *)
Lemma fetch_sources e lesson view w :
  fst (fetch e lesson view w)
  = match request e, server w !! (lesson, view) with
    | None, Some r => Some r
    | _, _ => localStorage w !! storageKey lesson view
    end.
Proof.
  unfold fetch, getDrawing, service_get, setItem, getItem.
  destruct (request e) as [err|]; simpl.
  - by destruct (includes_404 err).
  - destruct (server w !! (lesson, view)); [|done]. simpl.
    by destruct (quota_exceeded e).
Qed.

End LoadTiers.

Lemma blank_canvas_transparent :
  Notions.transparent (Persistence.pixels Samples.blank_canvas).
Proof.
  intros i a Hl. apply list_elem_of_lookup_2 in Hl. simpl in Hl.
  repeat (apply elem_of_cons in Hl as [->|Hl]; [reflexivity|]).
  by apply elem_of_nil in Hl.
Qed.

Lemma inked_canvas_inked :
  Notions.inked (Persistence.pixels Samples.inked_canvas).
Proof. exists 0%nat, 255%Z. split; [reflexivity|lia]. Qed.

Lemma save_falls_back_witness :
  fst (Persistence.saveCanvasData Samples.png_of Samples.jpeg_of
         Samples.offline Samples.inked_canvas "L2-01" "notebook"
         (Samples.local_only (Samples.record_of "1.0" "L2-01" "notebook"))) = true.
Proof.
  apply (proj1 (proj2 (save_falls_back Samples.png_of Samples.jpeg_of
                         Samples.offline Samples.inked_canvas "L2-01" "notebook"
                         (Samples.local_only (Samples.record_of "1.0" "L2-01" "notebook"))
                         (Persistence.pixels Samples.inked_canvas)
                         eq_refl inked_canvas_inked))).
  - discriminate.
  - reflexivity.
Defined.

Lemma empty_surface_removed_witness :
  Persistence.server
    (snd (Persistence.saveCanvasData Samples.png_of Samples.jpeg_of
            Samples.online Samples.blank_canvas "L2-01" "notebook"
            Samples.both_tiers)) !! ("L2-01", "notebook")%string = None.
Proof.
  apply (proj1 (proj2 (proj2 (proj2
           (empty_surface_removed Samples.png_of Samples.jpeg_of
              Samples.online Samples.blank_canvas "L2-01" "notebook"
              Samples.both_tiers (Persistence.pixels Samples.blank_canvas)
              eq_refl blank_canvas_transparent))))).
  reflexivity.
Defined.


(** C4, the claim fails when the service cannot be reached: the empty
    surface is "saved" with success and the local record is gone, but the
    record on the service is still there. *)
Lemma offline_empty_save_keeps_remote :
  Notions.transparent (Persistence.pixels Samples.blank_canvas)
  /\ Persistence.server Samples.both_tiers !! ("L2-01", "notebook")%string
     = Some (Samples.record_of "2.0" "L2-01" "notebook")
  /\ fst (Persistence.saveCanvasData Samples.png_of Samples.jpeg_of
            Samples.offline Samples.blank_canvas "L2-01" "notebook"
            Samples.both_tiers) = true
  /\ Persistence.server
       (snd (Persistence.saveCanvasData Samples.png_of Samples.jpeg_of
               Samples.offline Samples.blank_canvas "L2-01" "notebook"
               Samples.both_tiers)) !! ("L2-01", "notebook")%string
     = Some (Samples.record_of "2.0" "L2-01" "notebook").
Proof.
  split; [exact blank_canvas_transparent|].
  split; [|split]; vm_compute; reflexivity.
Qed.
